(** * akismet-js: the Akismet client of [src/index.ts]

    A shallow embedding of [AkismetClient] and of its request executor
    [_postRequest], with the properties of the client's request/response
    mapping proved over it.

    Conventions of the embedding:
    - a JavaScript [string] is a [string]; [number]s that the client handles
      (the port, the HTTP status code) are integers, [Z];
    - an optional field ([blog?: string]) is an [option]: [None] is
      [undefined];
    - the open parameter object [AkismetParameters] is a finite map from
      property names to values, [gmap string JsValue]; the assignment
      [options.blog = v] is an insertion;
    - a callback is a transformer of the caller's state [S]: invoking it twice
      applies it twice;
    - the libraries the file imports ([url.format], [request.post], [domain])
      are the environment: [formatURL] is a variable, and what the stack does
      for one request is the list of [StackEvent]s it delivers to the two
      handlers that [_postRequest] registers. *)

From stdpp Require Import gmap strings list.

Local Open Scope string_scope.
Local Open Scope Z_scope.

(** ** JavaScript values and the [||] operator *)

(** The values a property of the parameter object can hold
    ([[key: string]: any]). *)
Inductive JsValue : Type :=
| JsUndefined
| JsNull
| JsBoolean (b : bool)
| JsNumber (n : Z)
| JsString (s : string).

(** An [Error] object: always truthy, never [null]. *)
Record JsError : Type := { message : string }.

(** [o || d] for [o : string | undefined]: [undefined] and [''] are falsy. *)
Definition or_string (o : option string) (d : string) : string :=
  match o with
  | Some s => if String.eqb s "" then d else s
  | None => d
  end.

(** [o || d] for [o : number | undefined]: [undefined] and [0] are falsy. *)
Definition or_number (o : option Z) (d : Z) : Z :=
  match o with
  | Some n => if n =? 0 then d else n
  | None => d
  end.

(** ** [AkismetOptions] and the constructor *)

Record AkismetOptions : Type := {
  blog : option string;
  apiKey : string;
  host : option string;
  endPoint : option string;
  port : option Z;
  userAgent : option string;
  charSet : option string
}.

Record AkismetClient : Type := {
  _blog : string;
  _apiKey : string;
  _host : string;
  _endPoint : string;
  _port : Z;
  _userAgent : string;
  _charSet : string
}.

(** [constructor(options)], lines 195-203. *)
Definition constructor (options : AkismetOptions) : AkismetClient :=
  let this_blog := or_string (blog options) "" in
  let this_apiKey := apiKey options in
  let this_host := or_string (host options) "rest.akismet.com" in
  let this_endPoint :=
    or_string (endPoint options) (this_apiKey +:+ "." +:+ this_host) in
  {| _blog := this_blog;
     _apiKey := this_apiKey;
     _host := this_host;
     _endPoint := this_endPoint;
     _port := or_number (port options) 80;
     _userAgent :=
       or_string (userAgent options) "Generic Node.js/1.0.0 | Akismet/3.1.7";
     _charSet := or_string (charSet options) "utf-8" |}.

(** [akismet.client(options)], lines 318-325. *)
Definition client (options : AkismetOptions) : AkismetClient :=
  constructor options.

(** The configuration [{ apiKey: key }]: every optional field omitted. *)
Definition only_apiKey (key : string) : AkismetOptions :=
  {| blog := None; apiKey := key; host := None; endPoint := None;
     port := None; userAgent := None; charSet := None |}.

(** ** The request and what the stack answers *)

(** The object given to [url.format], lines 285-290. *)
Module Url.
Record t : Type := {
  protocol : string;
  hostname : string;
  pathname : string;
  port : Z
}.
End Url.

Record Headers : Type := {
  content_type : string;
  user_agent : string
}.

(** The [options] object given to [request.post], lines 292-299. The [form]
    is the caller's parameter object itself. *)
Record RequestOptions : Type := {
  url : string;
  form : gmap string JsValue;
  headers : Headers
}.

(** The part of [request]'s [Response] that the client reads. *)
Record Response : Type := { statusCode : Z }.

(** [_postRequest] registers two handlers: the listener of the domain's
    ['error'] event (line 302) and the callback of [postRequest]
    (lines 305-310). An event is one invocation of one of them by the
    stack, with the arguments the stack passes. *)
Inductive StackEvent : Type :=
| DomainError (err : JsError)
| PostDone (err : option JsError) (response : Response) (body : string).

(** ** Callbacks *)

Definition VerifyKeyCallback (S : Type) : Type := option JsError -> bool -> S -> S.
Definition CheckSpamCallback (S : Type) : Type := option JsError -> bool -> S -> S.
Definition SubmitCallback (S : Type) : Type := option JsError -> S -> S.
Definition PostRequestCallback (S : Type) : Type :=
  option JsError -> Z -> string -> S -> S.

(** A request in flight: the options handed to [request.post], and the
    reaction of the registered handlers to each event of the stack. *)
Record Pending (S : Type) : Type := {
  posted : RequestOptions;
  on_event : StackEvent -> S -> S
}.
Arguments posted {S} _.
Arguments on_event {S} _ _ _.

(** The stack delivers its events one after the other. *)
Definition deliver {S : Type} (p : Pending S) (events : list StackEvent) (s : S) : S :=
  fold_left (fun acc ev => on_event p ev acc) events s.

(** ** [AkismetClient] *)

(** The object literal that [_postRequest] gives to [formatURL],
    lines 285-290. *)
Definition urlObject (this : AkismetClient) (hostname path : string) : Url.t :=
  {| Url.protocol := if _port this =? 443 then "https" else "http";
     Url.hostname := hostname;
     Url.pathname := path;
     Url.port := _port this |}.

Section Client.

Context {S : Type}.

(** [format] of Node's [url] module. *)
Variable formatURL : Url.t -> string.

(** [_postRequest(hostname, path, query, callback)], lines 282-312. *)
Definition _postRequest (this : AkismetClient) (hostname path : string)
    (query : gmap string JsValue) (callback : PostRequestCallback S) : Pending S :=
  let requestUrl := formatURL (urlObject this hostname path) in
  let options :=
    {| url := requestUrl;
       form := query;
       headers := {| content_type := "charset=" +:+ _charSet this;
                     user_agent := _userAgent this |} |} in
  {| posted := options;
     on_event := fun ev =>
       match ev with
       | DomainError err => callback (Some err) 0 ""
       | PostDone err response body =>
           if err is Some _
           then callback err 0 ""
           else callback None (statusCode response) body
       end |}.

(** [verifyKey(callback)], lines 211-217. *)
Definition verifyKey (this : AkismetClient) (callback : VerifyKeyCallback S) : Pending S :=
  let options : gmap string JsValue :=
    <["blog" := JsString (_blog this)]> (<["key" := JsString (_apiKey this)]> ∅) in
  _postRequest this (_host this) "/1.1/verify-key" options
    (fun err status body =>
       callback err ((status >=? 200) && (status <? 300) && String.eqb body "valid")).

(** [checkComment(options, callback)], lines 226-233. The first component is
    the caller's object as the call leaves it. *)
Definition checkComment (this : AkismetClient) (options : gmap string JsValue)
    (callback : CheckSpamCallback S) : gmap string JsValue * Pending S :=
  let options := <["blog" := JsString (_blog this)]> options in
  let options := <["user_agent" := JsString (_userAgent this)]> options in
  (options,
   _postRequest this (_endPoint this) "/1.1/comment-check" options
     (fun err status body =>
        callback err ((status >=? 200) && (status <? 300) && String.eqb body "true"))).

(** [checkSpam(options, callback)], lines 242-244. *)
Definition checkSpam (this : AkismetClient) (options : gmap string JsValue)
    (callback : CheckSpamCallback S) : gmap string JsValue * Pending S :=
  checkComment this options callback.

(** [submitSpam(options, callback)], lines 253-260. *)
Definition submitSpam (this : AkismetClient) (options : gmap string JsValue)
    (callback : SubmitCallback S) : gmap string JsValue * Pending S :=
  let options := <["blog" := JsString (_blog this)]> options in
  let options := <["user_agent" := JsString (_userAgent this)]> options in
  (options,
   _postRequest this (_endPoint this) "/1.1/submit-spam" options
     (fun err status body => callback err)).

(** [submitHam(options, callback)], lines 269-276. *)
Definition submitHam (this : AkismetClient) (options : gmap string JsValue)
    (callback : SubmitCallback S) : gmap string JsValue * Pending S :=
  let options := <["blog" := JsString (_blog this)]> options in
  let options := <["user_agent" := JsString (_userAgent this)]> options in
  (options,
   _postRequest this (_endPoint this) "/1.1/submit-ham" options
     (fun err status body => callback err)).

End Client.

(** ** Observing a call *)

(** The callback that appends its arguments to a log: the log after the
    events is the sequence of invocations of the caller's callback. *)
Definition log_result : VerifyKeyCallback (list (option JsError * bool)) :=
  fun err flag log => (log ++ [(err, flag)])%list.

Definition log_submit : SubmitCallback (list (option JsError)) :=
  fun err log => (log ++ [err])%list.

(** The HTTP exchange [(status, body)]: [postRequest]'s callback invoked
    with no error. *)
Definition exchange (status : Z) (body : string) : StackEvent :=
  PostDone None {| statusCode := status |} body.

(** The error an event carries, if it is a failure of the transport. *)
Definition failure_of (ev : StackEvent) : option JsError :=
  match ev with
  | DomainError err => Some err
  | PostDone err _ _ => err
  end.

(** A stand-in for [url.format] on concrete calls: it answers [rendered]. *)
Definition rendering (rendered : string) : Url.t -> string :=
  fun _ => rendered.

(** The client of [test/test.coffee]. *)
Definition test_client : AkismetClient :=
  client {| blog := Some "ozgur.ozcitak.com"; apiKey := "f69278085823";
            host := None; endPoint := None; port := None;
            userAgent := None; charSet := None |}.

(** The callback of the executor that appends its arguments to a log. *)
Definition log_post : PostRequestCallback (list (option JsError * Z * string)) :=
  fun err status body log => (log ++ [(err, status, body)])%list.

(** ** Concrete calls *)

Example constructor_readme :
  constructor {| blog := Some "http://my.blog.com";
                 apiKey := "myakismetapikey123";
                 host := None; endPoint := None; port := None;
                 userAgent := None; charSet := None |}
  = {| _blog := "http://my.blog.com";
       _apiKey := "myakismetapikey123";
       _host := "rest.akismet.com";
       _endPoint := "myakismetapikey123.rest.akismet.com";
       _port := 80;
       _userAgent := "Generic Node.js/1.0.0 | Akismet/3.1.7";
       _charSet := "utf-8" |}.
Proof. reflexivity. Qed.

Example verifyKey_200_valid :
  deliver (verifyKey (rendering "http://rest.akismet.com:80/1.1/verify-key")
             test_client log_result)
    [exchange 200 "valid"] [] = [(None, true)].
Proof. reflexivity. Qed.

Example verifyKey_200_invalid :
  deliver (verifyKey (rendering "http://rest.akismet.com:80/1.1/verify-key")
             test_client log_result)
    [exchange 200 "invalid"] [] = [(None, false)].
Proof. reflexivity. Qed.

Example verifyKey_300_valid :
  deliver (verifyKey (rendering "http://rest.akismet.com:80/1.1/verify-key")
             test_client log_result)
    [exchange 300 "valid"] [] = [(None, false)].
Proof. reflexivity. Qed.

Example checkComment_200_true_false :
  let call body :=
    deliver (checkComment
               (rendering "http://f69278085823.rest.akismet.com:80/1.1/comment-check")
               test_client {[ "user_ip" := JsString "192.168.0.1" ]} log_result).2
      [exchange 200 body] [] in
  call "true" = [(None, true)] /\ call "false" = [(None, false)].
Proof. split; reflexivity. Qed.

Example checkComment_injects :
  (checkComment (rendering "") test_client
     {[ "user_ip" := JsString "192.168.0.1"; "blog" := JsNumber 3 ]}
     log_result).1
  = {[ "user_ip" := JsString "192.168.0.1";
       "blog" := JsString "ozgur.ozcitak.com";
       "user_agent" := JsString "Generic Node.js/1.0.0 | Akismet/3.1.7" ]}.
Proof. by vm_compute. Qed.

(** ** Reading a status and a body *)

Lemma status_2xx (status : Z) :
  (status >=? 200) && (status <? 300) = true <-> 200 <= status < 300.
Proof. rewrite andb_true_iff, Z.geb_le, Z.ltb_lt. lia. Qed.

Lemma accepts_iff (status : Z) (body expected : string) :
  (status >=? 200) && (status <? 300) && String.eqb body expected = true
  <-> 200 <= status < 300 /\ body = expected.
Proof. by rewrite andb_true_iff, status_2xx, String.eqb_eq. Qed.

(** ** Delivery of events *)

Lemma deliver_nil {S : Type} (p : Pending S) (s : S) : deliver p [] s = s.
Proof. reflexivity. Qed.

Lemma deliver_cons {S : Type} (p : Pending S) ev events (s : S) :
  deliver p (ev :: events) s = deliver p events (on_event p ev s).
Proof. reflexivity. Qed.

Lemma deliver_app {S : Type} (p : Pending S) events1 events2 (s : S) :
  deliver p (events1 ++ events2)%list s = deliver p events2 (deliver p events1 s).
Proof. apply fold_left_app. Qed.

(** A handler that adds one entry to the log for each event leaves as many
    entries as there were events. *)
Lemma deliver_length {A : Type} (p : Pending (list A)) :
  (forall ev log, length (on_event p ev log) = Datatypes.S (length log)) ->
  forall events log,
    length (deliver p events log) = (length log + length events)%nat.
Proof.
  intros Hstep events. induction events as [|ev events IH]; intros log.
  - rewrite deliver_nil. simpl. lia.
  - rewrite deliver_cons, IH, Hstep. simpl. lia.
Qed.

Lemma log_result_length err flag log :
  length (log_result err flag log) = Datatypes.S (length log).
Proof. unfold log_result. rewrite length_app. simpl. lia. Qed.

Lemma log_submit_length err log :
  length (log_submit err log) = Datatypes.S (length log).
Proof. unfold log_submit. rewrite length_app. simpl. lia. Qed.

(** ** The request executor *)

Section Executor.

Context {S : Type}.
Variable formatURL : Url.t -> string.
Variable this : AkismetClient.

(** The executor reacts to an event with exactly one invocation of its
    callback: the error of a failure with status [0] and an empty body,
    the status and the body of an exchange. *)
Lemma postRequest_on_event hostname path query (callback : PostRequestCallback S) ev s :
  on_event (_postRequest formatURL this hostname path query callback) ev s
  = match ev with
    | DomainError err => callback (Some err) 0 "" s
    | PostDone (Some err) _ _ => callback (Some err) 0 "" s
    | PostDone None response body => callback None (statusCode response) body s
    end.
Proof. by destruct ev as [err|[err|] response body]. Qed.

Lemma postRequest_posted hostname path query (callback : PostRequestCallback S) :
  posted (_postRequest formatURL this hostname path query callback)
  = {| url := formatURL (urlObject this hostname path);
       form := query;
       headers := {| content_type := "charset=" +:+ _charSet this;
                     user_agent := _userAgent this |} |}.
Proof. reflexivity. Qed.

Lemma verifyKey_on_event (callback : VerifyKeyCallback S) ev s :
  on_event (verifyKey formatURL this callback) ev s
  = match failure_of ev, ev with
    | None, PostDone _ response body =>
        callback None
          ((statusCode response >=? 200) && (statusCode response <? 300)
           && String.eqb body "valid") s
    | err, _ => callback err false s
    end.
Proof. by destruct ev as [err|[err|] response body]. Qed.

Lemma checkComment_on_event options (callback : CheckSpamCallback S) ev s :
  on_event (checkComment formatURL this options callback).2 ev s
  = match failure_of ev, ev with
    | None, PostDone _ response body =>
        callback None
          ((statusCode response >=? 200) && (statusCode response <? 300)
           && String.eqb body "true") s
    | err, _ => callback err false s
    end.
Proof. by destruct ev as [err|[err|] response body]. Qed.

Lemma submitSpam_on_event options (callback : SubmitCallback S) ev s :
  on_event (submitSpam formatURL this options callback).2 ev s
  = callback (failure_of ev) s.
Proof. by destruct ev as [err|[err|] response body]. Qed.

Lemma submitHam_on_event options (callback : SubmitCallback S) ev s :
  on_event (submitHam formatURL this options callback).2 ev s
  = callback (failure_of ev) s.
Proof. by destruct ev as [err|[err|] response body]. Qed.

End Executor.

(** ** The operations *)

(** C1. [verifyKey] posts the two fields [key] and [blog], and no other, to
    the path [/1.1/verify-key] on the configured host [_host] (not on
    [_endPoint]); for every HTTP exchange [(status, body)] delivered without a
    transport error its callback is invoked with a null error and a boolean
    that is [true] if and only if [200 <= status < 300] and the body is
    exactly ["valid"], hence [(null, false)] for every other combination. *)
Theorem verifyKey_valid_iff (formatURL : Url.t -> string) (this : AkismetClient)
    (status : Z) (body : string) :
  let call := verifyKey formatURL this log_result in
  url (posted call) = formatURL (urlObject this (_host this) "/1.1/verify-key")
  /\ Url.hostname (urlObject this (_host this) "/1.1/verify-key") = _host this
  /\ Url.pathname (urlObject this (_host this) "/1.1/verify-key") = "/1.1/verify-key"
  /\ form (posted call) !! "key" = Some (JsString (_apiKey this))
  /\ form (posted call) !! "blog" = Some (JsString (_blog this))
  /\ dom (form (posted call)) = ({[ "key"; "blog" ]} : gset string)
  /\ exists isValid : bool,
       deliver call [exchange status body] [] = [(None, isValid)]
       /\ (isValid = true <-> 200 <= status < 300 /\ body = "valid").
Proof.
  cbn zeta. unfold verifyKey at 1 2 3 4. rewrite postRequest_posted.
  cbn [url form]. split_and!.
  - reflexivity.
  - reflexivity.
  - reflexivity.
  - by rewrite lookup_insert_ne, lookup_insert_eq.
  - by rewrite lookup_insert_eq.
  - rewrite !dom_insert_L, dom_empty_L. set_solver.
  - exists ((status >=? 200) && (status <? 300) && String.eqb body "valid").
    split; [reflexivity | apply accepts_iff].
Qed.

(** C2. [checkComment] posts to the path [/1.1/comment-check] on the per-key
    endpoint [_endPoint]; for every HTTP exchange [(status, body)] delivered
    without a transport error its callback is invoked with a null error and a
    boolean that is [true] if and only if [200 <= status < 300] and the body
    is exactly ["true"]; every other combination, the body ["false"]
    included, gives [(null, false)]. *)
Theorem checkComment_spam_iff (formatURL : Url.t -> string) (this : AkismetClient)
    (options : gmap string JsValue) (status : Z) (body : string) :
  let call := (checkComment formatURL this options log_result).2 in
  url (posted call)
    = formatURL (urlObject this (_endPoint this) "/1.1/comment-check")
  /\ Url.hostname (urlObject this (_endPoint this) "/1.1/comment-check")
       = _endPoint this
  /\ Url.pathname (urlObject this (_endPoint this) "/1.1/comment-check")
       = "/1.1/comment-check"
  /\ (exists isSpam : bool,
       deliver call [exchange status body] [] = [(None, isSpam)]
       /\ (isSpam = true <-> 200 <= status < 300 /\ body = "true"))
  /\ deliver call [exchange status "false"] [] = [(None, false)].
Proof.
  cbn zeta. split_and!; try reflexivity.
  - exists ((status >=? 200) && (status <? 300) && String.eqb body "true").
    split; [reflexivity | apply accepts_iff].
  - unfold deliver, exchange. cbn [fold_left].
    rewrite checkComment_on_event. cbn.
    by rewrite andb_false_r.
Qed.

(** C3. When the transport fails, whether the error reaches the executor
    through [postRequest]'s callback or through the domain's ['error'] event,
    [verifyKey], [checkComment] and [checkSpam] invoke their callback with
    that error and [false], and [submitSpam] and [submitHam] invoke theirs
    with that error: the failure is reported through the callback. *)
Theorem transport_error_reported (formatURL : Url.t -> string) (this : AkismetClient)
    (options : gmap string JsValue) (err : JsError) (response : Response)
    (body : string) :
  let failed ev :=
    deliver (verifyKey formatURL this log_result) [ev] [] = [(Some err, false)]
    /\ deliver (checkComment formatURL this options log_result).2 [ev] []
       = [(Some err, false)]
    /\ deliver (checkSpam formatURL this options log_result).2 [ev] []
       = [(Some err, false)]
    /\ deliver (submitSpam formatURL this options log_submit).2 [ev] []
       = [Some err]
    /\ deliver (submitHam formatURL this options log_submit).2 [ev] []
       = [Some err] in
  failed (PostDone (Some err) response body) /\ failed (DomainError err).
Proof. cbn zeta. split_and!; reflexivity. Qed.

(** C4. For every HTTP response that [submitSpam] or [submitHam] receives,
    whatever its status and its body, the callback is invoked with a null
    error; the error given to the callback is non-null only for a failure of
    the transport, and then it is that failure's error. *)
Theorem submit_ignores_response (formatURL : Url.t -> string) (this : AkismetClient)
    (options : gmap string JsValue) (status : Z) (body : string) :
  deliver (submitSpam formatURL this options log_submit).2
    [exchange status body] [] = [None]
  /\ deliver (submitHam formatURL this options log_submit).2
       [exchange status body] [] = [None]
  /\ forall ev err,
       (deliver (submitSpam formatURL this options log_submit).2 [ev] []
          = [Some err]
        <-> ev = DomainError err
            \/ exists response body', ev = PostDone (Some err) response body')
       /\ (deliver (submitHam formatURL this options log_submit).2 [ev] []
             = [Some err]
           <-> ev = DomainError err
               \/ exists response body', ev = PostDone (Some err) response body').
Proof.
  split_and!; try reflexivity.
  intros ev err. split; split.
  - destruct ev as [e|[e|] response body']; cbn; intros [= <-]; eauto.
  - intros [->|(response & body' & ->)]; reflexivity.
  - destruct ev as [e|[e|] response body']; cbn; intros [= <-]; eauto.
  - intros [->|(response & body' & ->)]; reflexivity.
Qed.

(** C5. [checkSpam] is [checkComment] under another name: for every
    parameter object, callback and behaviour of the stack, both leave the
    caller's object in the same state, post the same request and invoke the
    callback in the same way. *)
Theorem checkSpam_alias {S : Type} (formatURL : Url.t -> string)
    (this : AkismetClient) (options : gmap string JsValue)
    (callback : CheckSpamCallback S) (events : list StackEvent) (s : S) :
  checkSpam formatURL this options callback
    = checkComment formatURL this options callback
  /\ (checkSpam formatURL this options callback).1
     = (checkComment formatURL this options callback).1
  /\ posted (checkSpam formatURL this options callback).2
     = posted (checkComment formatURL this options callback).2
  /\ deliver (checkSpam formatURL this options callback).2 events s
     = deliver (checkComment formatURL this options callback).2 events s.
Proof. by unfold checkSpam. Qed.

(** The two assignments [options.blog = this._blog] and
    [options.user_agent = this._userAgent]. *)
Lemma injected_lookup (this : AkismetClient) (options : gmap string JsValue) :
  let options' :=
    <["user_agent" := JsString (_userAgent this)]>
      (<["blog" := JsString (_blog this)]> options) in
  options' !! "blog" = Some (JsString (_blog this))
  /\ options' !! "user_agent" = Some (JsString (_userAgent this))
  /\ forall key, key <> "blog" -> key <> "user_agent" ->
       options' !! key = options !! key.
Proof.
  cbn zeta. split_and!.
  - by rewrite lookup_insert_ne, lookup_insert_eq.
  - by rewrite lookup_insert_eq.
  - intros key Hblog Hagent. by rewrite !lookup_insert_ne.
Qed.

(** C6. After [checkComment], [submitSpam] or [submitHam] the caller's
    parameter object has [blog] equal to the client's [_blog] and
    [user_agent] equal to the client's [_userAgent], whatever it held there
    before; every other key holds what it held before; and the form of the
    posted request is that object. *)
Theorem parameters_overwritten {S T : Type} (formatURL : Url.t -> string)
    (this : AkismetClient) (options : gmap string JsValue)
    (check : CheckSpamCallback S) (submit : SubmitCallback T) (key : string) :
  key <> "blog" -> key <> "user_agent" ->
  let injected {R : Type} (call : gmap string JsValue * Pending R) :=
    call.1 !! "blog" = Some (JsString (_blog this))
    /\ call.1 !! "user_agent" = Some (JsString (_userAgent this))
    /\ call.1 !! key = options !! key
    /\ form (posted call.2) = call.1
    /\ form (posted call.2) !! key = options !! key in
  injected (checkComment formatURL this options check)
  /\ injected (submitSpam formatURL this options submit)
  /\ injected (submitHam formatURL this options submit).
Proof.
  intros Hblog Hagent. cbn zeta.
  destruct (injected_lookup this options) as (Hb & Ha & Hother).
  specialize (Hother key Hblog Hagent).
  unfold checkComment, submitSpam, submitHam. cbn [fst snd].
  rewrite !postRequest_posted. cbn [form].
  by split_and!.
Qed.

Lemma parameters_overwritten_witness :
  let options : gmap string JsValue :=
    {[ "user_ip" := JsString "192.168.0.1"; "blog" := JsString "other" ]} in
  let call := checkComment (rendering "") test_client options log_result in
  "user_ip" <> "blog" /\ "user_ip" <> "user_agent"
  /\ call.1 !! "blog" = Some (JsString "ozgur.ozcitak.com")
  /\ call.1 !! "user_agent"
     = Some (JsString "Generic Node.js/1.0.0 | Akismet/3.1.7")
  /\ call.1 !! "user_ip" = Some (JsString "192.168.0.1")
  /\ form (posted call.2) !! "user_ip" = Some (JsString "192.168.0.1").
Proof.
  cbn zeta.
  assert (Hblog : "user_ip" <> "blog") by discriminate.
  assert (Hagent : "user_ip" <> "user_agent") by discriminate.
  destruct (parameters_overwritten (rendering "") test_client
    {[ "user_ip" := JsString "192.168.0.1"; "blog" := JsString "other" ]}
    log_result log_submit "user_ip" Hblog Hagent)
    as [(Hb & Ha & Hk & _ & Hf) _].
  split_and!; [exact Hblog | exact Hagent | exact Hb | exact Ha | exact Hk | exact Hf].
Defined.

(** ** How often the callback is invoked *)

(** C7, as stated, fails: when the stack invokes [postRequest]'s callback
    with a response and the domain then captures an error, [verifyKey]'s
    callback is invoked twice, first with [(null, true)], then with the
    error and [false]. *)
Lemma callback_invoked_twice :
  let call :=
    verifyKey (rendering "http://rest.akismet.com:80/1.1/verify-key")
      test_client log_result in
  let events :=
    [exchange 200 "valid"; DomainError {| message := "socket hang up" |}] in
  deliver call events []
    = [(None, true); (Some {| message := "socket hang up" |}, false)]
  /\ length (deliver call events []) <> 1%nat.
Proof. split; [reflexivity | discriminate]. Qed.

(** C7, amended. For every operation the caller's callback is invoked exactly
    once for each event that the stack delivers to the executor (a
    completion of the POST or an error captured by the domain): as many
    invocations as events, hence exactly one when the stack delivers exactly
    one event, whichever it is. *)
Theorem callback_once_per_event (formatURL : Url.t -> string)
    (this : AkismetClient) (options : gmap string JsValue)
    (events : list StackEvent) (ev : StackEvent) :
  (length (deliver (verifyKey formatURL this log_result) events [])
     = length events
   /\ length (deliver (checkComment formatURL this options log_result).2 events [])
      = length events
   /\ length (deliver (checkSpam formatURL this options log_result).2 events [])
      = length events
   /\ length (deliver (submitSpam formatURL this options log_submit).2 events [])
      = length events
   /\ length (deliver (submitHam formatURL this options log_submit).2 events [])
      = length events)
  /\ (exists outcome,
        deliver (verifyKey formatURL this log_result) [ev] [] = [outcome])
  /\ (exists outcome,
        deliver (checkComment formatURL this options log_result).2 [ev] []
        = [outcome])
  /\ (exists outcome,
        deliver (checkSpam formatURL this options log_result).2 [ev] []
        = [outcome])
  /\ (exists outcome,
        deliver (submitSpam formatURL this options log_submit).2 [ev] []
        = [outcome])
  /\ (exists outcome,
        deliver (submitHam formatURL this options log_submit).2 [ev] []
        = [outcome]).
Proof.
  split_and!.
  - rewrite deliver_length; [done|]. intros e log.
    rewrite verifyKey_on_event.
    destruct e as [err|[err|] response body]; apply log_result_length.
  - rewrite deliver_length; [done|]. intros e log.
    rewrite checkComment_on_event.
    destruct e as [err|[err|] response body]; apply log_result_length.
  - unfold checkSpam. rewrite deliver_length; [done|]. intros e log.
    rewrite checkComment_on_event.
    destruct e as [err|[err|] response body]; apply log_result_length.
  - rewrite deliver_length; [done|]. intros e log.
    rewrite submitSpam_on_event. apply log_submit_length.
  - rewrite deliver_length; [done|]. intros e log.
    rewrite submitHam_on_event. apply log_submit_length.
  - destruct ev as [err|[err|] response body]; eexists; reflexivity.
  - destruct ev as [err|[err|] response body]; eexists; reflexivity.
  - destruct ev as [err|[err|] response body]; eexists; reflexivity.
  - destruct ev as [err|[err|] response body]; eexists; reflexivity.
  - destruct ev as [err|[err|] response body]; eexists; reflexivity.
Qed.

(** ** The target URL *)

(** C8. The executor gives [url.format] the scheme [https] if and only if
    the configured port is 443 and [http] otherwise, together with the given
    hostname, the given path and the configured port, and posts to the URL
    so formatted. *)
Theorem postRequest_scheme {S : Type} (formatURL : Url.t -> string)
    (this : AkismetClient) (hostname path : string)
    (query : gmap string JsValue) (callback : PostRequestCallback S) :
  let target := urlObject this hostname path in
  url (posted (_postRequest formatURL this hostname path query callback))
    = formatURL target
  /\ (Url.protocol target = "https" <-> _port this = 443)
  /\ (Url.protocol target = "http" <-> _port this <> 443)
  /\ Url.hostname target = hostname
  /\ Url.pathname target = path
  /\ Url.port target = _port this.
Proof.
  cbn zeta. rewrite postRequest_posted. unfold urlObject. cbn.
  split_and!; try reflexivity;
    destruct (Z.eqb_spec (_port this) 443) as [Heq|Hne]; split;
    try done.
Qed.

(** ** Construction *)

(** C9. A client constructed from a configuration in which only [apiKey] is
    set has the endpoint [apiKey + "." + "rest.akismet.com"], the port 80
    and the character set ["utf-8"]. *)
Theorem constructor_only_apiKey (key : string) :
  let this := client (only_apiKey key) in
  _endPoint this = key +:+ "." +:+ "rest.akismet.com"
  /\ _port this = 80
  /\ _charSet this = "utf-8".
Proof.
  cbn zeta. unfold client, constructor, only_apiKey. cbn.
  split_and!; reflexivity.
Qed.

(** C10. A falsy field of the configuration is replaced by the default as if
    it had been omitted: the port [0] gives the client of an omitted port,
    whose port is 80 and whose scheme is [http]; an empty [host], [endPoint],
    [userAgent] or [charSet] gives the client of the omitted field. *)
Theorem constructor_falsy_fields (b : option string) (k : string)
    (h e : option string) (p : option Z) (u c : option string)
    (hostname path : string) :
  let make h' e' p' u' c' :=
    constructor {| blog := b; apiKey := k; host := h'; endPoint := e';
                   port := p'; userAgent := u'; charSet := c' |} in
  make h e (Some 0) u c = make h e None u c
  /\ _port (make h e (Some 0) u c) = 80
  /\ Url.protocol (urlObject (make h e (Some 0) u c) hostname path) = "http"
  /\ make (Some "") e p u c = make None e p u c
  /\ make h (Some "") p u c = make h None p u c
  /\ make h e p (Some "") c = make h e p None c
  /\ make h e p u (Some "") = make h e p u None
  /\ _host (make (Some "") e p u c) = "rest.akismet.com"
  /\ _endPoint (make h (Some "") p u c) = k +:+ "." +:+ _host (make h e p u c)
  /\ _userAgent (make h e p (Some "") c) = "Generic Node.js/1.0.0 | Akismet/3.1.7"
  /\ _charSet (make h e p u (Some "")) = "utf-8".
Proof. cbn zeta. split_and!; reflexivity. Qed.

(** ** More on construction *)

Lemma string_length_app (s1 s2 : string) :
  String.length (s1 +:+ s2) = (String.length s1 + String.length s2)%nat.
Proof. induction s1 as [|a s1 IH]; simpl; [done | by rewrite IH]. Qed.

Lemma or_string_nonempty (o : option string) (d : string) :
  d <> "" -> or_string o d <> "".
Proof.
  intros Hd. destruct o as [s|]; simpl; [|done].
  destruct (String.eqb_spec s ""); done.
Qed.

Lemma or_string_given (s d : string) : s <> "" -> or_string (Some s) d = s.
Proof. intros Hs. simpl. by destruct (String.eqb_spec s ""). Qed.

Lemma or_number_nonzero (o : option Z) (d : Z) : d <> 0 -> or_number o d <> 0.
Proof.
  intros Hd. destruct o as [n|]; simpl; [|done].
  destruct (Z.eqb_spec n 0); done.
Qed.

Lemma default_endPoint_longer (key hostname : string) :
  String.length (key +:+ "." +:+ hostname)
  = Datatypes.S (String.length key + String.length hostname).
Proof. rewrite !string_length_app. simpl. lia. Qed.

(** X1. Whatever the configuration, the constructed client has a non-empty
    host, a non-empty endpoint, a non-zero port, a non-empty user agent and a
    non-empty character set. *)
Theorem constructor_fields_set (options : AkismetOptions) :
  let this := constructor options in
  _host this <> "" /\ _endPoint this <> "" /\ _port this <> 0
  /\ _userAgent this <> "" /\ _charSet this <> "".
Proof.
  cbn zeta. unfold constructor. cbn [_host _endPoint _port _userAgent _charSet].
  split_and!.
  - by apply or_string_nonempty.
  - apply or_string_nonempty. intros Hnil.
    apply (f_equal String.length) in Hnil.
    rewrite default_endPoint_longer in Hnil. discriminate.
  - by apply or_number_nonzero.
  - by apply or_string_nonempty.
  - by apply or_string_nonempty.
Qed.

(** X2. A configuration that gives every field, with a non-empty host,
    endpoint, user agent and character set and a non-zero port, is taken as
    it is: no default replaces a given value, and the given endpoint is kept
    whatever the key and the host are. *)
Theorem constructor_keeps_given (b k h e : string) (p : Z) (u c : string) :
  h <> "" -> e <> "" -> p <> 0 -> u <> "" -> c <> "" ->
  constructor {| blog := Some b; apiKey := k; host := Some h;
                 endPoint := Some e; port := Some p;
                 userAgent := Some u; charSet := Some c |}
  = {| _blog := b; _apiKey := k; _host := h; _endPoint := e; _port := p;
       _userAgent := u; _charSet := c |}.
Proof.
  intros Hh He Hp Hu Hc. unfold constructor.
  cbn [blog apiKey host endPoint port userAgent charSet].
  rewrite (or_string_given h), (or_string_given e), (or_string_given u),
    (or_string_given c) by done.
  assert (or_string (Some b) "" = b) as ->.
  { simpl. by destruct (String.eqb_spec b "") as [->|]. }
  assert (or_number (Some p) 80 = p) as ->.
  { simpl. by destruct (Z.eqb_spec p 0). }
  reflexivity.
Qed.

Lemma constructor_keeps_given_witness :
  "rest.example.org" <> "" /\ "k.rest.example.org" <> "" /\ 443 <> 0
  /\ "my-app/2.0" <> "" /\ "iso-8859-1" <> ""
  /\ constructor {| blog := Some ""; apiKey := "k";
                    host := Some "rest.example.org";
                    endPoint := Some "k.rest.example.org"; port := Some 443;
                    userAgent := Some "my-app/2.0";
                    charSet := Some "iso-8859-1" |}
     = {| _blog := ""; _apiKey := "k"; _host := "rest.example.org";
          _endPoint := "k.rest.example.org"; _port := 443;
          _userAgent := "my-app/2.0"; _charSet := "iso-8859-1" |}.
Proof.
  split_and!; try discriminate.
  apply (constructor_keeps_given "" "k" "rest.example.org" "k.rest.example.org"
           443 "my-app/2.0" "iso-8859-1"); discriminate.
Defined.

(** X3. When the endpoint is omitted (or empty) it is the key, a dot and the
    client's host, the given host if there is one and the default otherwise;
    it is then never the host itself, so that key verification and the
    per-key operations address different hostnames. *)
Theorem constructor_default_endPoint (b : option string) (k : string)
    (h : option string) (p : option Z) (u c : option string) :
  let make e :=
    constructor {| blog := b; apiKey := k; host := h; endPoint := e;
                   port := p; userAgent := u; charSet := c |} in
  (_endPoint (make None) = k +:+ "." +:+ _host (make None)
   /\ _endPoint (make None) <> _host (make None))
  /\ (_endPoint (make (Some "")) = k +:+ "." +:+ _host (make (Some ""))
      /\ _endPoint (make (Some "")) <> _host (make (Some "")))
  /\ _host (make None) = or_string h "rest.akismet.com".
Proof.
  cbn zeta. unfold constructor. cbn.
  assert (Hne : forall x : string, k +:+ "." +:+ x <> x).
  { intros x Heq. apply (f_equal String.length) in Heq.
    rewrite default_endPoint_longer in Heq. lia. }
  split_and!; first [reflexivity | apply Hne].
Qed.

(** ** More on the requests *)

(** X4. [submitSpam] and [submitHam] post to [/1.1/submit-spam] and
    [/1.1/submit-ham] on the per-key endpoint, and differ in nothing but
    that path: same state of the caller's object, same form, same headers,
    same reaction to every event. *)
Theorem submit_targets {S : Type} (formatURL : Url.t -> string)
    (this : AkismetClient) (options : gmap string JsValue)
    (callback : SubmitCallback S) :
  let spam := submitSpam formatURL this options callback in
  let ham := submitHam formatURL this options callback in
  url (posted spam.2)
    = formatURL (urlObject this (_endPoint this) "/1.1/submit-spam")
  /\ url (posted ham.2)
     = formatURL (urlObject this (_endPoint this) "/1.1/submit-ham")
  /\ spam.1 = ham.1
  /\ form (posted spam.2) = form (posted ham.2)
  /\ headers (posted spam.2) = headers (posted ham.2)
  /\ forall ev s, on_event spam.2 ev s = on_event ham.2 ev s.
Proof.
  cbn zeta. split_and!.
  - reflexivity.
  - reflexivity.
  - reflexivity.
  - reflexivity.
  - reflexivity.
  - intros ev s. by rewrite submitSpam_on_event, submitHam_on_event.
Qed.


(** Injecting twice is injecting once. *)
Lemma inject_idempotent (this : AkismetClient) (options : gmap string JsValue) :
  let inject (o : gmap string JsValue) :=
    <["user_agent" := JsString (_userAgent this)]>
      (<["blog" := JsString (_blog this)]> o) in
  inject (inject options) = inject options.
Proof.
  cbn zeta. apply map_eq. intros key.
  destruct (decide (key = "user_agent")) as [->|Hagent].
  - by rewrite !lookup_insert_eq.
  - rewrite !(lookup_insert_ne _ "user_agent") by done.
    destruct (decide (key = "blog")) as [->|Hblog].
    + by rewrite !lookup_insert_eq.
    + by rewrite !lookup_insert_ne.
Qed.

(** What the caller put under [blog] and [user_agent] does not survive the
    injection. *)
Lemma inject_forgets (this : AkismetClient) (options : gmap string JsValue)
    (v w : JsValue) :
  let inject (o : gmap string JsValue) :=
    <["user_agent" := JsString (_userAgent this)]>
      (<["blog" := JsString (_blog this)]> o) in
  inject (<["blog" := v]> (<["user_agent" := w]> options)) = inject options
  /\ inject (delete "blog" (delete "user_agent" options)) = inject options.
Proof.
  cbn zeta. split; apply map_eq; intros key.
  - destruct (decide (key = "user_agent")) as [->|Hagent].
    + by rewrite !lookup_insert_eq.
    + rewrite !(lookup_insert_ne _ "user_agent") by done.
      destruct (decide (key = "blog")) as [->|Hblog].
      * by rewrite !lookup_insert_eq.
      * by rewrite !lookup_insert_ne.
  - destruct (decide (key = "user_agent")) as [->|Hagent].
    + by rewrite !lookup_insert_eq.
    + rewrite !(lookup_insert_ne _ "user_agent") by done.
      destruct (decide (key = "blog")) as [->|Hblog].
      * by rewrite !lookup_insert_eq.
      * by rewrite !lookup_insert_ne, !lookup_delete_ne.
Qed.

(** X6. A parameter object that one of [checkComment], [submitSpam] and
    [submitHam] has filled in can be given to any of them again on the same
    client: the second call leaves it as the first did, and posts the form
    that the first posted. *)
Theorem parameters_reused {S T : Type} (formatURL : Url.t -> string)
    (this : AkismetClient) (options : gmap string JsValue)
    (check : CheckSpamCallback S) (submit : SubmitCallback T) :
  let first := checkComment formatURL this options check in
  let again {R : Type} (call : gmap string JsValue * Pending R) :=
    call.1 = first.1 /\ form (posted call.2) = form (posted first.2) in
  (submitSpam formatURL this options submit).1 = first.1
  /\ (submitHam formatURL this options submit).1 = first.1
  /\ again (checkComment formatURL this first.1 check)
  /\ again (submitSpam formatURL this first.1 submit)
  /\ again (submitHam formatURL this first.1 submit).
Proof.
  cbn zeta. unfold checkComment, submitSpam, submitHam. cbn [fst snd].
  rewrite !postRequest_posted. cbn [form].
  pose proof (inject_idempotent this options) as Hidem. cbn zeta in Hidem.
  by split_and!.
Qed.

(** X7. The values that the caller supplied for [blog] and [user_agent] have
    no effect at all: a call on an object that holds any values there, or
    none, is the call on the object without them. *)
Theorem caller_blog_ignored {S T : Type} (formatURL : Url.t -> string)
    (this : AkismetClient) (options : gmap string JsValue)
    (check : CheckSpamCallback S) (submit : SubmitCallback T) (v w : JsValue) :
  let given := <["blog" := v]> (<["user_agent" := w]> options) in
  let bare := delete "blog" (delete "user_agent" options) in
  checkComment formatURL this given check
    = checkComment formatURL this bare check
  /\ submitSpam formatURL this given submit
     = submitSpam formatURL this bare submit
  /\ submitHam formatURL this given submit
     = submitHam formatURL this bare submit.
Proof.
  cbn zeta. unfold checkComment, submitSpam, submitHam.
  destruct (inject_forgets this options v w) as [Hgiven Hbare].
  cbn zeta in Hgiven, Hbare. rewrite Hgiven, Hbare.
  by split_and!.
Qed.

(** ** More on the delivery of outcomes *)

(** A handler that only appends to the log reports each event on its own. *)
Lemma deliver_appending {A : Type} (p : Pending (list A)) :
  (forall ev log, on_event p ev log = (log ++ on_event p ev [])%list) ->
  forall events log,
    deliver p events log
    = (log ++ flat_map (fun ev => on_event p ev []) events)%list.
Proof.
  intros Happ events. induction events as [|ev events IH]; intros log.
  - rewrite deliver_nil. simpl. by rewrite app_nil_r.
  - rewrite deliver_cons, IH, Happ. simpl. by rewrite <- app_assoc.
Qed.

Lemma deliver_split {A : Type} (p : Pending (list A)) :
  (forall ev log, on_event p ev log = (log ++ on_event p ev [])%list) ->
  forall events1 events2,
    deliver p (events1 ++ events2)%list []
    = (deliver p events1 [] ++ deliver p events2 [])%list.
Proof.
  intros Happ events1 events2.
  rewrite !(deliver_appending p Happ). simpl. apply flat_map_app.
Qed.

Lemma deliver_Forall {A : Type} (P : A -> Prop) (p : Pending (list A)) :
  (forall ev log, Forall P log -> Forall P (on_event p ev log)) ->
  forall events log, Forall P log -> Forall P (deliver p events log).
Proof.
  intros Hstep events. induction events as [|ev events IH]; intros log Hlog.
  - by rewrite deliver_nil.
  - rewrite deliver_cons. by apply IH, Hstep.
Qed.

(** X8. The executor hands the status and the body of a response to its
    callback as they are, whatever the status; and over any sequence of
    events it never reports an error together with a status or a body: with
    an error the status is 0 and the body is empty. *)
Theorem postRequest_result_shape (formatURL : Url.t -> string)
    (this : AkismetClient) (hostname path : string)
    (query : gmap string JsValue) (status : Z) (body : string)
    (events : list StackEvent) :
  let call := _postRequest formatURL this hostname path query log_post in
  deliver call [exchange status body] [] = [(None, status, body)]
  /\ Forall (fun r : option JsError * Z * string =>
               r.1.1 <> None -> r.1.2 = 0 /\ r.2 = "")
       (deliver call events []).
Proof.
  cbn zeta. split; [reflexivity|].
  apply deliver_Forall; [|constructor].
  intros ev log Hlog. rewrite postRequest_on_event.
  destruct ev as [err|[err|] response body']; unfold log_post;
    apply Forall_app; (split; [exact Hlog|]);
    repeat constructor; done.
Qed.

(** X9. The outcome reported for an event does not depend on the events
    delivered before it: for every operation the invocations caused by a
    sequence of events followed by another are those of the first followed
    by those of the second. *)
Theorem outcomes_independent (formatURL : Url.t -> string)
    (this : AkismetClient) (options : gmap string JsValue)
    (events1 events2 : list StackEvent) :
  let independent {A : Type} (call : Pending (list A)) :=
    deliver call (events1 ++ events2)%list []
    = (deliver call events1 [] ++ deliver call events2 [])%list in
  independent (verifyKey formatURL this log_result)
  /\ independent (checkComment formatURL this options log_result).2
  /\ independent (checkSpam formatURL this options log_result).2
  /\ independent (submitSpam formatURL this options log_submit).2
  /\ independent (submitHam formatURL this options log_submit).2.
Proof.
  cbn zeta. unfold checkSpam. split_and!; apply deliver_split; intros ev log.
  - rewrite !verifyKey_on_event.
    by destruct ev as [err|[err|] response body].
  - rewrite !checkComment_on_event.
    by destruct ev as [err|[err|] response body].
  - rewrite !checkComment_on_event.
    by destruct ev as [err|[err|] response body].
  - by rewrite !submitSpam_on_event.
  - by rewrite !submitHam_on_event.
Qed.

(** X10. Over any sequence of events, [verifyKey], [checkComment] and
    [checkSpam] never invoke their callback with an error and [true]: a
    [true] always comes with a null error. *)
Theorem never_error_and_true (formatURL : Url.t -> string)
    (this : AkismetClient) (options : gmap string JsValue)
    (events : list StackEvent) :
  let sound (log : list (option JsError * bool)) :=
    Forall (fun r : option JsError * bool => r.2 = true -> r.1 = None) log in
  sound (deliver (verifyKey formatURL this log_result) events [])
  /\ sound (deliver (checkComment formatURL this options log_result).2 events [])
  /\ sound (deliver (checkSpam formatURL this options log_result).2 events []).
Proof.
  cbn zeta. unfold checkSpam.
  split_and!; (apply deliver_Forall; [|constructor]); intros ev log Hlog.
  - rewrite verifyKey_on_event.
    destruct ev as [err|[err|] response body]; unfold log_result;
      apply Forall_app; (split; [exact Hlog|]); repeat constructor; done.
  - rewrite checkComment_on_event.
    destruct ev as [err|[err|] response body]; unfold log_result;
      apply Forall_app; (split; [exact Hlog|]); repeat constructor; done.
  - rewrite checkComment_on_event.
    destruct ev as [err|[err|] response body]; unfold log_result;
      apply Forall_app; (split; [exact Hlog|]); repeat constructor; done.
Qed.
